(** * pubtools: task lifecycle hooks ([pubtools/_impl/pluggy.py])

    A shallow embedding of [resolve_hooks] and of the [task_context]
    context manager, together with the part of the Python run time they
    lean on (Python 3.7 and later): exceptions as values with an identity,
    the import cache [sys.modules], a one-[yield] generator driven by
    [contextlib]'s [contextmanager], and the [with] statement.

    Effects are threaded through a small state-and-exception monad over a
    [world] that holds the import cache, the plugin registry and an
    observation trace. *)

From stdpp Require Import gmap strings list fin_maps.
From Stdlib Require Import ZArith.

Open Scope string_scope.
Open Scope list_scope.

(** ** Python values and exceptions *)

(** The values an exit code or a hook argument takes here: [None],
    booleans, integers and strings.  Other objects a program may pass to
    [sys.exit] (floats, instances with an [__ne__] of their own) are not
    represented. *)
Inductive pyval :=
| PyNone
| PyBool (b : bool)
| PyInt (n : Z)
| PyStr (s : string).

#[global] Instance pyval_eq_dec : EqDecision pyval.
Proof. solve_decision. Defined.

(** [v != 0] as Python evaluates it on these values: [None] and strings
    never equal [0], [False == 0] and [True == 1]. *)
Definition py_ne_zero (v : pyval) : bool :=
  match v with
  | PyNone => true
  | PyBool b => b
  | PyInt n => negb (n =? 0)%Z
  | PyStr _ => true
  end.

(** An exception object: its place in the class hierarchy and its identity
    ([ident], what Python's [is] compares).  [SystemExit] carries [code];
    [BaseOnly] stands for the other [BaseException]s that are no
    [Exception] ([KeyboardInterrupt], [GeneratorExit]).  The instances
    of [Exception] are the remaining four: [StopIteration]; [RuntimeError],
    with the identity of its [__cause__] when it has one;
    [GeneratorRuntimeError], the [RuntimeError] the interpreter raises in
    place of the [StopIteration] object [cause] that leaves a generator,
    which becomes its [__cause__]; and [Exception] for an instance of any
    other subclass. *)
Inductive exc :=
| SystemExit (ident : nat) (code : pyval)
| Exception (ident : nat)
| BaseOnly (ident : nat)
| StopIteration (ident : nat)
| RuntimeError (ident : nat) (cause : option nat)
| GeneratorRuntimeError (cause : nat).

#[global] Instance exc_eq_dec : EqDecision exc.
Proof. solve_decision. Defined.

(** [isinstance(e, Exception)], [isinstance(e, StopIteration)] and
    [isinstance(e, RuntimeError)] *)
Definition is_Exception (e : exc) : bool :=
  match e with
  | SystemExit _ _ | BaseOnly _ => false
  | Exception _ | StopIteration _ | RuntimeError _ _
  | GeneratorRuntimeError _ => true
  end.

Definition is_StopIteration (e : exc) : bool :=
  match e with
  | StopIteration _ => true
  | _ => false
  end.

Definition is_RuntimeError (e : exc) : bool :=
  match e with
  | RuntimeError _ _ | GeneratorRuntimeError _ => true
  | _ => false
  end.

(** [isinstance(value, StopIteration) and e.__cause__ is value] *)
Definition caused_by (e value : exc) : bool :=
  match value, e with
  | StopIteration n, RuntimeError _ (Some c) => bool_decide (c = n)
  | StopIteration n, GeneratorRuntimeError c => bool_decide (c = n)
  | _, _ => false
  end.

(** What an exception raised in the body of a generator is once it has
    left the generator (Python 3.7 and later): a [StopIteration] is
    replaced by a [RuntimeError] that has it as [__cause__]; anything else
    passes as it is. *)
Definition leaves_generator (e : exc) : exc :=
  match e with
  | StopIteration n => GeneratorRuntimeError n
  | _ => e
  end.

Inductive result (A : Type) :=
| Ok (a : A)
| Raise (e : exc).
Arguments Ok {A} a.
Arguments Raise {A} e.

(** ** The world *)

(** [pkg_resources.EntryPoint]: [name = module_name:attrs]. *)
Record entry_point := {
  ep_name : string;
  module_name : string;
  attrs : list string
}.

(** A registered hook implementation: the function object and the argument
    names it declares. *)
Record hookimpl := {
  impl_fn : nat;
  impl_argnames : list string
}.

#[global] Instance hookimpl_eq_dec : EqDecision hookimpl.
Proof. solve_decision. Defined.

Abbreviation kwargs := (list (string * pyval)).
Abbreviation registry := (gmap string (list hookimpl)).

(** What an observer of the process can see, in order. *)
Inductive event :=
| ExecModule (m : string)
| LogDebug (ep : entry_point)
| HookCall (spec : string) (kw : kwargs)
| ImplCall (spec : string) (i : hookimpl) (args : kwargs)
| BlockRun.

Record world := {
  sys_modules : gset string;
  plugins : registry;
  trace : list event
}.

(** Code outside this module (module top levels, hook functions, the
    protected block) acts on the plugin registry and either returns or
    raises. *)
Abbreviation foreign := (registry → registry * result unit).

(** The installed environment the module runs in. *)
Record environment := {
  (** [pkg_resources.iter_entry_points(group)] *)
  iter_entry_points : string → list entry_point;
  (** the top-level code of a module, run on its first import *)
  module_body : string → foreign;
  (** whether [reduce(getattr, ep.attrs, module)] finds every attribute *)
  has_attrs : entry_point → bool;
  (** the [ImportError] that [ep.resolve()] raises when it does not *)
  import_error : entry_point → exc;
  (** the code of a hook function, applied to the arguments bound to it *)
  impl_body : hookimpl → kwargs → foreign;
  (** the order in which pluggy walks the implementations of one call *)
  call_order : list hookimpl → list hookimpl
}.

(** ** The monad *)

Definition py (A : Type) : Type := world → world * result A.

#[global] Instance py_ret : MRet py := λ A a w, (w, Ok a).

#[global] Instance py_bind : MBind py := λ A B k m w,
  match m w with
  | (w', Ok a) => k a w'
  | (w', Raise e) => (w', Raise e)
  end.

Definition raise {A} (e : exc) : py A := λ w, (w, Raise e).

Definition emit (ev : event) : py unit :=
  λ w, ({| sys_modules := sys_modules w; plugins := plugins w;
           trace := trace w ++ [ev] |}, Ok tt).

Definition call_foreign (f : foreign) : py unit :=
  λ w, let '(r, o) := f (plugins w) in
       ({| sys_modules := sys_modules w; plugins := r; trace := trace w |}, o).

(** [for x in l: body(x)] *)
Fixpoint for_each {A} (l : list A) (body : A → py unit) : py unit :=
  match l with
  | [] => mret tt
  | x :: l' => body x;; for_each l' body
  end.

Section Pubtools.

Variable E : environment.

(** ** Imports *)

(** [m in sys.modules] and [sys.modules[m] = module]. *)
Definition is_imported (m : string) : py bool :=
  λ w, (w, Ok (bool_decide (m ∈ sys_modules w))).

Definition cache_module (m : string) : py unit :=
  λ w, ({| sys_modules := {[m]} ∪ sys_modules w; plugins := plugins w;
           trace := trace w |}, Ok tt).

(** [__import__(m)]: the module is loaded only when [m] is not in
    [sys.modules], and a load that raises leaves no entry for [m] behind.
    [module_body E m] stands for the whole load of [m], from finding it to
    running its top-level code, and [ExecModule m] marks its start.  The
    entries a load adds to [sys.modules] besides [m], for parent packages
    and for the imports the module makes itself, are not represented. *)
Definition import_module (m : string) : py unit :=
  cached ← is_imported m;
  if cached : bool then mret tt
  else emit (ExecModule m);;
       call_foreign (module_body E m);;
       cache_module m.

(** [EntryPoint.resolve]: import the module, then walk the attributes. *)
Definition ep_resolve (ep : entry_point) : py unit :=
  import_module (module_name ep);;
  if has_attrs E ep then mret tt else raise (import_error E ep).

(** ** [resolve_hooks] *)

Definition resolve_hooks : py unit :=
  for_each (iter_entry_points E "console_scripts") (λ ep,
    if String.prefix "pubtools" (module_name ep)
    then ep_resolve ep;; emit (LogDebug ep)
    else mret tt);;
  for_each (iter_entry_points E "pubtools.hooks") (λ ep,
    ep_resolve ep;; emit (LogDebug ep)).

(** ** The plugin manager [pm] *)

(** [pluggy.PluginManager], the third-party class behind [pm], is not part
    of this repository; its operations follow section 4.3 of the
    specification.  The order in which one call walks the implementations
    is pluggy's own and is left to [call_order]. *)

(** Modelled from the spec: the ordered list of the implementations
    registered for [spec]; a spec nothing was registered for has none. *)
Definition registered (spec : string) (r : registry) : list hookimpl :=
  default [] (r !! spec).

(** Modelled from the spec: [register] appends to the list of the spec. *)
Definition register (spec : string) (i : hookimpl) (r : registry) : registry :=
  <[spec := registered spec r ++ [i]]> r.

(** Modelled from the spec: [unregister] removes a prior registration. *)
Definition unregister (spec : string) (i : hookimpl) (r : registry) : registry :=
  <[spec := filter (λ j, j ≠ i) (registered spec r)]> r.

(** Modelled from the spec: arguments are bound by name, and those the
    implementation did not declare are left out. *)
Definition bind_args (i : hookimpl) (kw : kwargs) : kwargs :=
  filter (λ kv, kv.1 ∈ impl_argnames i) kw.

Definition call_impl (spec : string) (kw : kwargs) (i : hookimpl) : py unit :=
  emit (ImplCall spec i (bind_args i kw));;
  call_foreign (impl_body E i (bind_args i kw)).

(** Modelled from the spec: the implementations one call walks are those
    registered when the call starts. *)
Definition get_hookimpls (spec : string) : py (list hookimpl) :=
  λ w, (w, Ok (call_order E (registered spec (plugins w)))).

(** Modelled from the spec: [pm.hook.<spec>(...)] with keyword arguments
    [kw] calls every one of them; the first that raises ends the call and
    its exception propagates. *)
Definition hook_call (spec : string) (kw : kwargs) : py unit :=
  emit (HookCall spec kw);;
  impls ← get_hookimpls spec;
  for_each impls (call_impl spec kw).

(** ** Generators, [contextmanager] and [with] *)

(** How a suspended generator is resumed: [next(gen)] or
    [gen.throw(value)]. *)
Inductive resumption :=
| Next
| Throw (value : exc).

(** A generator function with a single [yield]: the code up to the
    [yield], which leaves the local variables [F] in the frame, and the
    code from the [yield] on. *)
Record generator (F : Type) := {
  gen_start : py F;
  gen_resume : F → resumption → py unit
}.
Arguments gen_start {F} g.
Arguments gen_resume {F} g.

Definition try_block (block : py unit) : py (result unit) :=
  λ w, let '(w', o) := block w in (w', Ok o).

(** [next(gen)] and [gen.throw(value)] as their caller sees them: an
    exception the body raises leaves the generator. *)
Definition run_generator {A} (body : py A) : py A :=
  λ w, match body w with
       | (w', Ok a) => (w', Ok a)
       | (w', Raise e) => (w', Raise (leaves_generator e))
       end.

(** [with contextmanager(g)(): block].  [__enter__] runs the generator to
    its [yield].  [__exit__] resumes it.  When the block returned it calls
    [next]; a generator that returns ends the statement, one that raises
    has its exception propagate.  When the block raised [value] it calls
    [throw(value)]; a generator that returns suppresses [value]; for one
    that raises [e], [__exit__] returns false, so that [with] re-raises
    [value], when [e] is [value] or when [e] is a [RuntimeError] whose
    [__cause__] is the [StopIteration] [value]; otherwise [e] propagates
    in place of [value]. *)
Definition with_contextmanager {F} (g : generator F) (block : py unit) : py unit :=
  frame ← run_generator (gen_start g);
  o ← try_block block;
  match o with
  | Ok _ => run_generator (gen_resume g frame Next)
  | Raise value =>
      o' ← try_block (run_generator (gen_resume g frame (Throw value)));
      match o' with
      | Ok _ => mret tt
      | Raise e =>
          if is_RuntimeError e then
            if decide (e = value) then raise value
            else if caused_by e value then raise value
            else raise e
          else
            if decide (e = value) then raise value else raise e
      end
  end.

(** ** [task_context] *)

(** The [try] statement around the [yield], up to its [finally] clause:
    the value of [failed] when that clause runs, and the exception that is
    propagating then.  [next] lets the [yield] return, so [failed = False]
    runs; a thrown [SystemExit] is caught by the first handler, which sets
    [failed = exit.code != 0] and re-raises with a bare [raise]; an
    instance of [Exception] by the second, which sets [failed = True] and
    re-raises; anything else matches no handler and leaves [failed] as it
    was assigned before the [try]. *)
Definition classify (failed : bool) (r : resumption) : bool * option exc :=
  match r with
  | Next => (false, None)
  | Throw (SystemExit _ code as exit) => (py_ne_zero code, Some exit)
  | Throw e => if is_Exception e then (true, Some e) else (failed, Some e)
  end.

(** The generator function.  Up to the [yield] it resolves the hooks, calls
    [task_start] and assigns [failed = True].  From the [yield] on, the
    [finally] clause calls [task_stop] with [failed]; an exception that was
    propagating goes on propagating afterwards, unless [task_stop] itself
    raised. *)
Definition task_context : generator bool := {|
  gen_start :=
    resolve_hooks;;
    hook_call "task_start" [];;
    mret true;
  gen_resume failed r :=
    let '(failed, pending) := classify failed r in
    hook_call "task_stop" [("failed", PyBool failed)];;
    match pending with
    | None => mret tt
    | Some e => raise e
    end
|}.

(** The protected block: the caller's code, run while the generator is
    suspended. *)
Definition run_block (block : foreign) : py unit :=
  emit BlockRun;;
  call_foreign block.

(** [with task_context(): block] *)
Definition with_task_context (block : foreign) : py unit :=
  with_contextmanager task_context (run_block block).

End Pubtools.

(** ** Observations on a run *)

(** The part of a trace the lifecycle is about: hook calls and the block. *)
Definition is_lifecycle (ev : event) : bool :=
  match ev with
  | HookCall _ _ | BlockRun => true
  | _ => false
  end.

Definition lifecycle (tr : list event) : list event := filter is_lifecycle tr.

Definition is_impl_call (spec : string) (ev : event) : bool :=
  match ev with
  | ImplCall s _ _ => bool_decide (s = spec)
  | _ => false
  end.

Definition is_exec (ev : event) : bool :=
  match ev with
  | ExecModule _ => true
  | _ => false
  end.

Definition discovery_event (ev : event) : Prop :=
  match ev with
  | ExecModule _ | LogDebug _ => True
  | _ => False
  end.

Definition impl_event (spec : string) (ev : event) : Prop :=
  match ev with
  | ImplCall s _ _ => s = spec
  | _ => False
  end.

(** [w'] has the trace of [w] followed by events that all satisfy [Q]. *)
Definition grows (Q : event → Prop) (w w' : world) : Prop :=
  ∃ evs, trace w' = trace w ++ evs ∧ Forall Q evs.

Definition emits_only {A} (Q : event → Prop) (m : py A) : Prop :=
  ∀ w w' o, m w = (w', o) → grows Q w w'.

Definition logged (evs : list event) (w : world) : world :=
  {| sys_modules := sys_modules w; plugins := plugins w;
     trace := trace w ++ evs |}.

(** How [with] resumes the generator after a block that ended with [o], and
    the value [task_context] then passes to [task_stop]. *)
Definition resumption_of (o : result unit) : resumption :=
  match o with
  | Ok _ => Next
  | Raise value => Throw value
  end.

Definition failed_flag (o : result unit) : bool :=
  (classify true (resumption_of o)).1.

(** The [failed] value section 4.4 of the specification asks for: false on
    normal completion, [code ≠ 0] on an exit request, true on any other
    raised error. *)
Definition expected_failed (o : result unit) : bool :=
  match o with
  | Ok _ => false
  | Raise (SystemExit _ code) => py_ne_zero code
  | Raise _ => true
  end.

Section Candidates.

Variable E : environment.

(** What both loops of [resolve_hooks] do with an entry point. *)
Definition resolve_and_log (ep : entry_point) : py unit :=
  ep_resolve E ep;; emit (LogDebug ep).

(** The entry points [resolve_hooks] resolves, in order. *)
Definition candidates : list entry_point :=
  filter (λ ep, String.prefix "pubtools" (module_name ep))
         (iter_entry_points E "console_scripts")
  ++ iter_entry_points E "pubtools.hooks".

(** [ep.resolve()] has nothing left to do for [ep] in [w]. *)
Definition resolved (ep : entry_point) (w : world) : Prop :=
  module_name ep ∈ sys_modules w ∧ has_attrs E ep = true.

End Candidates.

(** The entry points a trace shows a debug line for, in order. *)
Definition debug_lines (tr : list event) : list entry_point :=
  omap (λ ev, match ev with LogDebug ep => Some ep | _ => None end) tr.

(** The three shapes the lifecycle part of one session can take. *)
Definition session_shape (l : list event) : Prop :=
  l = [] ∨
  l = [HookCall "task_start" []] ∨
  ∃ failed : pyval, l = [HookCall "task_start" []; BlockRun;
                         HookCall "task_stop" [("failed", failed)]].

(** What the caller of a session sees when the [task_stop] dispatch raised
    [e] after the block ended with [o]: what [e] is once it has left the
    generator, unless that is a [RuntimeError] whose [__cause__] is the
    [StopIteration] the block raised, which [with] then re-raises. *)
Definition stop_error_seen (o : result unit) (e : exc) : exc :=
  match o with
  | Ok _ => leaves_generator e
  | Raise value =>
      if caused_by (leaves_generator e) value then value
      else leaves_generator e
  end.

(** ** A small installation to run the definitions on *)

Module Demo.

Definition quay_start : hookimpl := {| impl_fn := 1; impl_argnames := [] |}.
Definition acme_stop : hookimpl := {| impl_fn := 2; impl_argnames := [] |}.
Definition session_stop : hookimpl := {| impl_fn := 3; impl_argnames := ["failed"] |}.
Definition broken_start : hookimpl := {| impl_fn := 4; impl_argnames := [] |}.
Definition broken_stop : hookimpl := {| impl_fn := 5; impl_argnames := ["failed"] |}.
Definition exhausted_start : hookimpl := {| impl_fn := 6; impl_argnames := [] |}.
Definition exhausted_stop : hookimpl := {| impl_fn := 7; impl_argnames := [] |}.
Definition chained_stop : hookimpl := {| impl_fn := 8; impl_argnames := [] |}.

Definition quay_ep : entry_point :=
  {| ep_name := "pubtools-quay-push"; module_name := "pubtools._quay.push";
     attrs := ["main"] |}.
Definition pip_ep : entry_point :=
  {| ep_name := "pip"; module_name := "pip._internal.cli.main";
     attrs := ["main"] |}.
Definition acme_ep : entry_point :=
  {| ep_name := "acme"; module_name := "acme.hooks"; attrs := [] |}.
Definition broken_start_ep : entry_point :=
  {| ep_name := "broken-start"; module_name := "broken.start"; attrs := [] |}.
Definition broken_stop_ep : entry_point :=
  {| ep_name := "broken-stop"; module_name := "broken.stop"; attrs := [] |}.
Definition exhausted_start_ep : entry_point :=
  {| ep_name := "exhausted-start"; module_name := "exhausted.start";
     attrs := [] |}.
Definition exhausted_stop_ep : entry_point :=
  {| ep_name := "exhausted-stop"; module_name := "exhausted.stop";
     attrs := [] |}.
Definition chained_stop_ep : entry_point :=
  {| ep_name := "chained-stop"; module_name := "chained.stop"; attrs := [] |}.

(** Two console scripts, one of them under the [pubtools] namespace, and the
    given [pubtools.hooks] entry points.  Each module registers one hook on
    import; [quay_start] registers [session_stop] for the session, which
    unregisters itself when it is called; the [broken] hooks raise an
    exception, the [exhausted] ones a [StopIteration] and the [chained]
    one a [RuntimeError] whose cause is the exception object 7; pluggy's
    order is taken last registered first. *)
Definition env (hooks : list entry_point) : environment := {|
  iter_entry_points group :=
    if String.eqb group "console_scripts" then [quay_ep; pip_ep]
    else if String.eqb group "pubtools.hooks" then hooks
    else [];
  module_body m r :=
    if String.eqb m "pubtools._quay.push" then (register "task_start" quay_start r, Ok tt)
    else if String.eqb m "acme.hooks" then (register "task_stop" acme_stop r, Ok tt)
    else if String.eqb m "broken.start" then (register "task_start" broken_start r, Ok tt)
    else if String.eqb m "broken.stop" then (register "task_stop" broken_stop r, Ok tt)
    else if String.eqb m "exhausted.start"
      then (register "task_start" exhausted_start r, Ok tt)
    else if String.eqb m "exhausted.stop"
      then (register "task_stop" exhausted_stop r, Ok tt)
    else if String.eqb m "chained.stop"
      then (register "task_stop" chained_stop r, Ok tt)
    else if String.eqb m "exhausted.module" then (r, Raise (StopIteration 80))
    else (r, Raise (Exception 404));
  has_attrs _ := true;
  import_error _ := Exception 405;
  impl_body i _ r :=
    match impl_fn i with
    | 1 => (register "task_stop" session_stop r, Ok tt)
    | 3 => (unregister "task_stop" session_stop r, Ok tt)
    | 4 => (r, Raise (Exception 40))
    | 5 => (r, Raise (Exception 50))
    | 6 => (r, Raise (StopIteration 60))
    | 7 => (r, Raise (StopIteration 70))
    | 8 => (r, Raise (RuntimeError 90 (Some 7)))
    | _ => (r, Ok tt)
    end;
  call_order := reverse
|}.

Definition fresh : world := {| sys_modules := ∅; plugins := ∅; trace := [] |}.

Definition returns : foreign := λ r, (r, Ok tt).
Definition raises (e : exc) : foreign := λ r, (r, Raise e).

(** The world a computation leaves behind. *)
Definition after {A} (m : py A) (w : world) : world := (m w).1.

Definition discovered (hooks : list entry_point) : world :=
  after (resolve_hooks (env hooks)) fresh.
Definition started (hooks : list entry_point) : world :=
  after (hook_call (env hooks) "task_start" []) (discovered hooks).
Definition ran (hooks : list entry_point) (block : foreign) : world :=
  after (run_block block) (started hooks).
Definition stopped (hooks : list entry_point) (block : foreign) (failed : bool) : world :=
  after (hook_call (env hooks) "task_stop" [("failed", PyBool failed)])
        (ran hooks block).

End Demo.

(** More entry points for the installation above: a second one for the
    module of [acme_ep], one whose module cannot be imported, and one whose
    module raises [StopIteration] when it is imported. *)
Module DemoMore.

Definition acme_again_ep : entry_point :=
  {| ep_name := "acme-again"; module_name := "acme.hooks"; attrs := [] |}.
Definition missing_ep : entry_point :=
  {| ep_name := "missing"; module_name := "acme.missing"; attrs := [] |}.
Definition exhausted_module_ep : entry_point :=
  {| ep_name := "exhausted"; module_name := "exhausted.module"; attrs := [] |}.

End DemoMore.

(** * Properties *)

(** ** Running the monad *)

Lemma run_bind {A B} (m : py A) (k : A → py B) w :
  (m ≫= k) w =
    match m w with
    | (w', Ok a) => k a w'
    | (w', Raise e) => (w', Raise e)
    end.
Proof. reflexivity. Qed.

Lemma for_each_app {A} (l1 l2 : list A) body w :
  for_each (l1 ++ l2) body w = (for_each l1 body;; for_each l2 body) w.
Proof.
  revert w. induction l1 as [|x l1 IH]; intros w; simpl; [done|].
  rewrite !run_bind. destruct (body x w) as [w1 [[]|e]]; [|done].
  by rewrite IH, run_bind.
Qed.

Lemma for_each_filter {A} (f : A → bool) (l : list A) body w :
  for_each l (λ x, if f x then body x else mret tt) w
  = for_each (filter f l) body w.
Proof.
  revert w. induction l as [|x l IH]; intros w; simpl; [done|].
  rewrite filter_cons. destruct (f x) eqn:Hf; simpl.
  - rewrite !run_bind. destruct (body x w) as [w1 [[]|e]]; [apply IH|done].
  - rewrite run_bind. apply IH.
Qed.

(** ** What each step adds to the trace *)

Section Traces.

Context (Q : event → Prop).

Lemma grows_refl w w' : trace w' = trace w → grows Q w w'.
Proof. intros H. exists []. by rewrite app_nil_r. Qed.

Lemma grows_trans w1 w2 w3 : grows Q w1 w2 → grows Q w2 w3 → grows Q w1 w3.
Proof.
  intros (e1 & H1 & F1) (e2 & H2 & F2). exists (e1 ++ e2). split.
  - by rewrite H2, H1, app_assoc.
  - by apply Forall_app.
Qed.

Lemma emits_only_ret {A} (a : A) : emits_only Q (mret a).
Proof. intros w w' o [= <- _]. by apply grows_refl. Qed.

Lemma emits_only_raise {A} e : emits_only Q (@raise A e).
Proof. intros w w' o [= <- _]. by apply grows_refl. Qed.

Lemma emits_only_bind {A B} (m : py A) (k : A → py B) :
  emits_only Q m → (∀ a, emits_only Q (k a)) → emits_only Q (m ≫= k).
Proof.
  intros Hm Hk w w' o. rewrite run_bind.
  destruct (m w) as [w1 [a|e]] eqn:Em; intros Hr.
  - eapply grows_trans; [by eapply Hm | by eapply Hk].
  - injection Hr as <- _. by eapply Hm.
Qed.

Lemma emits_only_emit ev : Q ev → emits_only Q (emit ev).
Proof.
  intros HQ w w' o [= <- _]. exists [ev]. split; [done | by constructor].
Qed.

Lemma emits_only_foreign f : emits_only Q (call_foreign f).
Proof.
  intros w w' o. unfold call_foreign. destruct (f (plugins w)) as [r o'].
  intros [= <- _]. by apply grows_refl.
Qed.

Lemma emits_only_for_each {A} (l : list A) body :
  (∀ x, emits_only Q (body x)) → emits_only Q (for_each l body).
Proof.
  intros Hb. induction l as [|x l IH]; simpl.
  - apply emits_only_ret.
  - apply emits_only_bind; [apply Hb | intros _; apply IH].
Qed.

End Traces.

Lemma lifecycle_app tr1 tr2 :
  lifecycle (tr1 ++ tr2) = lifecycle tr1 ++ lifecycle tr2.
Proof. apply filter_app. Qed.

Lemma filter_none (f : event → bool) (Q : event → Prop) evs :
  (∀ ev, Q ev → f ev = false) → Forall Q evs → filter f evs = [].
Proof.
  intros Hf. induction 1 as [|ev evs HQ _ IH]; [done|].
  rewrite filter_cons, (Hf _ HQ). simpl. exact IH.
Qed.

Lemma grows_filter (f : event → bool) (Q : event → Prop) w w' :
  (∀ ev, Q ev → f ev = false) → grows Q w w' →
  filter f (trace w') = filter f (trace w).
Proof.
  intros Hf (evs & -> & HQ).
  by rewrite filter_app, (filter_none f Q evs), app_nil_r.
Qed.

Section Stages.

Variable E : environment.

Lemma import_module_emits m : emits_only discovery_event (import_module E m).
Proof.
  unfold import_module. apply emits_only_bind.
  - intros w w' o [= <- _]. by apply grows_refl.
  - intros [|]; [apply emits_only_ret|].
    apply emits_only_bind; [by apply emits_only_emit|intros _].
    apply emits_only_bind; [apply emits_only_foreign|intros _].
    intros w w' o [= <- _]. by apply grows_refl.
Qed.

Lemma ep_resolve_emits ep : emits_only discovery_event (ep_resolve E ep).
Proof.
  unfold ep_resolve. apply emits_only_bind; [apply import_module_emits|intros _].
  destruct (has_attrs E ep); [apply emits_only_ret | apply emits_only_raise].
Qed.

Lemma resolve_hooks_emits : emits_only discovery_event (resolve_hooks E).
Proof.
  unfold resolve_hooks. apply emits_only_bind; [|intros _];
    apply emits_only_for_each; intros ep.
  - destruct (String.prefix _ _); [|apply emits_only_ret].
    apply emits_only_bind; [apply ep_resolve_emits|intros _].
    by apply emits_only_emit.
  - apply emits_only_bind; [apply ep_resolve_emits|intros _].
    by apply emits_only_emit.
Qed.

Lemma call_impl_run spec kw i w :
  call_impl E spec kw i w =
    let '(r, o) := impl_body E i (bind_args i kw) (plugins w) in
    ({| sys_modules := sys_modules w; plugins := r;
        trace := trace w ++ [ImplCall spec i (bind_args i kw)] |}, o).
Proof.
  unfold call_impl, mbind, py_bind, emit, call_foreign. simpl.
  by destruct (impl_body E i (bind_args i kw) (plugins w)) as [r [[]|e]].
Qed.

Lemma call_impl_emits spec kw i :
  emits_only (impl_event spec) (call_impl E spec kw i).
Proof.
  unfold call_impl. apply emits_only_bind; [by apply emits_only_emit|intros _].
  apply emits_only_foreign.
Qed.

(** One dispatch leaves one [HookCall] in the trace, followed by calls of
    implementations of that spec only, whether it returns or raises. *)
Lemma hook_call_trace spec kw w w' o :
  hook_call E spec kw w = (w', o) →
  ∃ evs, trace w' = trace w ++ HookCall spec kw :: evs ∧
         Forall (impl_event spec) evs.
Proof.
  unfold hook_call, mbind, py_bind, emit, get_hookimpls. simpl.
  set (w0 := {| sys_modules := _ |}). intros Hr.
  destruct (emits_only_for_each (impl_event spec) _ (call_impl E spec kw)
              (call_impl_emits spec kw) w0 w' o Hr) as (evs & Ht & HQ).
  exists evs. split; [|done]. rewrite Ht. simpl. by rewrite <- app_assoc.
Qed.

Lemma for_each_call_impl_trace spec kw impls w w' :
  for_each impls (call_impl E spec kw) w = (w', Ok tt) →
  trace w' = trace w ++ map (λ i, ImplCall spec i (bind_args i kw)) impls.
Proof.
  revert w. induction impls as [|i impls IH]; intros w; simpl.
  - intros [= <-]. by rewrite app_nil_r.
  - rewrite run_bind, call_impl_run.
    destruct (impl_body E i (bind_args i kw) (plugins w)) as [r [[]|e]]; [|done].
    intros ->%IH. simpl. by rewrite <- app_assoc.
Qed.

(** A dispatch that returns has called every implementation registered
    when it started, in pluggy's order, each with the arguments it
    declared. *)
Lemma hook_call_returns_trace spec kw w w' :
  hook_call E spec kw w = (w', Ok tt) →
  trace w' = trace w ++ HookCall spec kw ::
    map (λ i, ImplCall spec i (bind_args i kw))
        (call_order E (registered spec (plugins w))).
Proof.
  unfold hook_call, mbind, py_bind, emit, get_hookimpls. simpl.
  intros ->%for_each_call_impl_trace. simpl. by rewrite <- app_assoc.
Qed.

Lemma for_each_call_impl_raises spec kw impls w w' e :
  for_each impls (call_impl E spec kw) w = (w', Raise e) →
  ∃ i r, i ∈ impls ∧ (impl_body E i (bind_args i kw) r).2 = Raise e.
Proof.
  revert w. induction impls as [|i impls IH]; intros w; simpl; [done|].
  rewrite run_bind, call_impl_run.
  destruct (impl_body E i (bind_args i kw) (plugins w)) as [r [[]|e']] eqn:Hi.
  - intros (j & r' & Hj & Hr)%IH. exists j, r'. split; [by right|done].
  - intros [= _ ->]. exists i, (plugins w). split; [by left|by rewrite Hi].
Qed.

(** A dispatch raises only what one of the implementations it walks
    raised. *)
Lemma hook_call_raises spec kw w w' e :
  hook_call E spec kw w = (w', Raise e) →
  ∃ i r, i ∈ call_order E (registered spec (plugins w)) ∧
         (impl_body E i (bind_args i kw) r).2 = Raise e.
Proof.
  unfold hook_call, mbind, py_bind, emit, get_hookimpls. simpl.
  apply for_each_call_impl_raises.
Qed.

Lemma resolve_hooks_lifecycle w w' o :
  resolve_hooks E w = (w', o) → lifecycle (trace w') = lifecycle (trace w).
Proof.
  intros Hr. apply (grows_filter _ discovery_event).
  - by intros [].
  - by eapply resolve_hooks_emits.
Qed.

Lemma hook_call_lifecycle spec kw w w' o :
  hook_call E spec kw w = (w', o) →
  lifecycle (trace w') = lifecycle (trace w) ++ [HookCall spec kw].
Proof.
  intros (evs & -> & HQ)%hook_call_trace.
  rewrite lifecycle_app. f_equal. unfold lifecycle.
  rewrite filter_cons. simpl. f_equal.
  apply (filter_none _ (impl_event spec)); [by intros []|done].
Qed.

Lemma run_block_lifecycle block w w' o :
  run_block block w = (w', o) →
  lifecycle (trace w') = lifecycle (trace w) ++ [BlockRun].
Proof.
  unfold run_block, mbind, py_bind, emit, call_foreign. simpl.
  destruct (block (plugins w)) as [r o']. intros [= <- _]. simpl.
  by rewrite lifecycle_app.
Qed.

End Stages.

(** ** One session, stage by stage *)

Lemma py_ne_zero_int (code : Z) :
  py_ne_zero (PyInt code) = bool_decide (code ≠ 0%Z).
Proof.
  unfold py_ne_zero. case_bool_decide as H; destruct (Z.eqb_spec code 0);
    simpl; congruence.
Qed.

(** [classify] computes the value the specification asks for. *)
Lemma failed_flag_expected o : failed_flag o = expected_failed o.
Proof. by destruct o as [[]|[]]. Qed.

Lemma failed_flag_exception value :
  is_Exception value = true → failed_flag (Raise value) = true.
Proof. by destruct value. Qed.

Section Session.

Variable E : environment.
Variable block : foreign.

(** A session, unfolded: what [with task_context(): block] returns in
    terms of its four steps. *)
Lemma with_task_context_run w :
  with_task_context E block w =
    match resolve_hooks E w with
    | (w1, Raise e) => (w1, Raise (leaves_generator e))
    | (w1, Ok _) =>
        match hook_call E "task_start" [] w1 with
        | (w2, Raise e) => (w2, Raise (leaves_generator e))
        | (w2, Ok _) =>
            let '(w3, o) := run_block block w2 in
            match hook_call E "task_stop"
                    [("failed", PyBool (failed_flag o))] w3 with
            | (w4, Ok _) => (w4, o)
            | (w4, Raise e) => (w4, Raise (stop_error_seen o e))
            end
        end
    end.
Proof.
  unfold with_task_context, with_contextmanager, task_context, try_block,
    run_generator, failed_flag, mbind, py_bind, mret, py_ret, raise.
  simpl.
  destruct (resolve_hooks E w) as [w1 [[]|e1]]; [|done].
  destruct (hook_call E "task_start" [] w1) as [w2 [[]|e2]]; [|done].
  destruct (run_block block w2) as [w3 [[]|value]]; simpl.
  - by destruct (hook_call E "task_stop" _ w3) as [w4 [[]|e4]].
  - destruct value; simpl;
      destruct (hook_call E "task_stop" _ w3) as [w4 [[]|e4]]; simpl;
      try destruct e4 as [| | | |? []|]; simpl;
      repeat case_decide; repeat case_bool_decide; simplify_eq; done.
Qed.

Lemma session_start_raises w w1 w2 e :
  resolve_hooks E w = (w1, Ok tt) →
  hook_call E "task_start" [] w1 = (w2, Raise e) →
  with_task_context E block w = (w2, Raise (leaves_generator e)).
Proof. intros H1 H2. by rewrite with_task_context_run, H1, H2. Qed.

Lemma session_stop_returns w w1 w2 w3 w4 o :
  resolve_hooks E w = (w1, Ok tt) →
  hook_call E "task_start" [] w1 = (w2, Ok tt) →
  run_block block w2 = (w3, o) →
  hook_call E "task_stop" [("failed", PyBool (failed_flag o))] w3 = (w4, Ok tt) →
  with_task_context E block w = (w4, o).
Proof. intros H1 H2 H3 H4. by rewrite with_task_context_run, H1, H2, H3, H4. Qed.

Lemma session_stop_raises w w1 w2 w3 w4 o e :
  resolve_hooks E w = (w1, Ok tt) →
  hook_call E "task_start" [] w1 = (w2, Ok tt) →
  run_block block w2 = (w3, o) →
  hook_call E "task_stop" [("failed", PyBool (failed_flag o))] w3 = (w4, Raise e) →
  with_task_context E block w = (w4, Raise (stop_error_seen o e)).
Proof. intros H1 H2 H3 H4. by rewrite with_task_context_run, H1, H2, H3, H4. Qed.

Lemma session_lifecycle w w1 w2 w3 w4 o o' kw :
  resolve_hooks E w = (w1, Ok tt) →
  hook_call E "task_start" [] w1 = (w2, Ok tt) →
  run_block block w2 = (w3, o) →
  hook_call E "task_stop" kw w3 = (w4, o') →
  lifecycle (trace w4) =
    lifecycle (trace w) ++
    [HookCall "task_start" []; BlockRun; HookCall "task_stop" kw].
Proof.
  intros H1%resolve_hooks_lifecycle H2%hook_call_lifecycle
    H3%run_block_lifecycle H4%hook_call_lifecycle.
  rewrite H4, H3, H2, H1. by rewrite <- !app_assoc.
Qed.

End Session.

(** ** The lifecycle *)

(** C1.  When discovery and the [task_start] dispatch succeed, the block
    returns normally and the [task_stop] dispatch returns, a session calls
    [task_start] once, then runs the block, then calls [task_stop] once with
    [failed=False], in that order, and returns normally to its caller. *)
Theorem task_context_block_returns E block w w1 w2 w3 w4 :
  resolve_hooks E w = (w1, Ok tt) →
  hook_call E "task_start" [] w1 = (w2, Ok tt) →
  run_block block w2 = (w3, Ok tt) →
  hook_call E "task_stop" [("failed", PyBool false)] w3 = (w4, Ok tt) →
  with_task_context E block w = (w4, Ok tt) ∧
  lifecycle (trace w4) =
    lifecycle (trace w) ++
    [HookCall "task_start" []; BlockRun;
     HookCall "task_stop" [("failed", PyBool false)]].
Proof.
  intros H1 H2 H3 H4. split.
  - by eapply session_stop_returns.
  - by eapply session_lifecycle.
Qed.

Lemma task_context_block_returns_witness :
  with_task_context (Demo.env [Demo.acme_ep]) Demo.returns Demo.fresh
    = (Demo.stopped [Demo.acme_ep] Demo.returns false, Ok tt) ∧
  lifecycle (trace (Demo.stopped [Demo.acme_ep] Demo.returns false)) =
    [HookCall "task_start" []; BlockRun;
     HookCall "task_stop" [("failed", PyBool false)]].
Proof.
  apply (task_context_block_returns (Demo.env [Demo.acme_ep]) Demo.returns
           Demo.fresh (Demo.discovered [Demo.acme_ep])
           (Demo.started [Demo.acme_ep])
           (Demo.ran [Demo.acme_ep] Demo.returns)
           (Demo.stopped [Demo.acme_ep] Demo.returns false));
    vm_compute; reflexivity.
Defined.

(** C2.  When the block raises an instance of [Exception], of whatever
    subclass, [task_stop] is called once, with [failed=True], and the
    caller of the session then sees that same exception object, provided
    the [task_stop] dispatch returns. *)
Theorem task_context_block_raises E block w w1 w2 w3 w4 value :
  is_Exception value = true →
  resolve_hooks E w = (w1, Ok tt) →
  hook_call E "task_start" [] w1 = (w2, Ok tt) →
  run_block block w2 = (w3, Raise value) →
  hook_call E "task_stop" [("failed", PyBool true)] w3 = (w4, Ok tt) →
  with_task_context E block w = (w4, Raise value) ∧
  lifecycle (trace w4) =
    lifecycle (trace w) ++
    [HookCall "task_start" []; BlockRun;
     HookCall "task_stop" [("failed", PyBool true)]].
Proof.
  intros Hv H1 H2 H3 H4. split.
  - eapply session_stop_returns; [done..|]. by rewrite failed_flag_exception.
  - by eapply session_lifecycle.
Qed.

Lemma task_context_block_raises_witness :
  with_task_context (Demo.env [Demo.acme_ep]) (Demo.raises (Exception 7))
      Demo.fresh
    = (Demo.stopped [Demo.acme_ep] (Demo.raises (Exception 7)) true,
       Raise (Exception 7)) ∧
  lifecycle (trace (Demo.stopped [Demo.acme_ep] (Demo.raises (Exception 7)) true)) =
    [HookCall "task_start" []; BlockRun;
     HookCall "task_stop" [("failed", PyBool true)]].
Proof.
  apply (task_context_block_raises (Demo.env [Demo.acme_ep])
           (Demo.raises (Exception 7)) Demo.fresh
           (Demo.discovered [Demo.acme_ep])
           (Demo.started [Demo.acme_ep])
           (Demo.ran [Demo.acme_ep] (Demo.raises (Exception 7)))
           (Demo.stopped [Demo.acme_ep] (Demo.raises (Exception 7)) true)
           (Exception 7));
    vm_compute; reflexivity.
Defined.

(** A block that raises [StopIteration]: the generator turns it into a
    [RuntimeError] on its way out, [__exit__] recognises its cause, and the
    caller still gets the object the block raised. *)
Example block_stop_iteration_reaches_caller :
  with_task_context (Demo.env [Demo.acme_ep]) (Demo.raises (StopIteration 7))
      Demo.fresh
    = (Demo.stopped [Demo.acme_ep] (Demo.raises (StopIteration 7)) true,
       Raise (StopIteration 7)).
Proof. vm_compute. reflexivity. Qed.

(** C3.  When the block ends with [SystemExit] carrying the integer status
    [code], [task_stop] is called once with [failed = (code != 0)], false
    for 0 and true for 2, and the caller then sees that [SystemExit] with
    its code unchanged, provided the [task_stop] dispatch returns. *)
Theorem task_context_exit_request E block w w1 w2 w3 w4 n (code : Z) :
  resolve_hooks E w = (w1, Ok tt) →
  hook_call E "task_start" [] w1 = (w2, Ok tt) →
  run_block block w2 = (w3, Raise (SystemExit n (PyInt code))) →
  hook_call E "task_stop" [("failed", PyBool (bool_decide (code ≠ 0%Z)))] w3
    = (w4, Ok tt) →
  with_task_context E block w = (w4, Raise (SystemExit n (PyInt code))) ∧
  lifecycle (trace w4) =
    lifecycle (trace w) ++
    [HookCall "task_start" []; BlockRun;
     HookCall "task_stop" [("failed", PyBool (bool_decide (code ≠ 0%Z)))]].
Proof.
  intros H1 H2 H3 H4. split.
  - eapply session_stop_returns; [done..|].
    unfold failed_flag. simpl resumption_of. cbn [classify fst].
    by rewrite py_ne_zero_int.
  - by eapply session_lifecycle.
Qed.

Lemma task_context_exit_request_witness :
  with_task_context (Demo.env [Demo.acme_ep])
      (Demo.raises (SystemExit 7 (PyInt 2))) Demo.fresh
    = (Demo.stopped [Demo.acme_ep] (Demo.raises (SystemExit 7 (PyInt 2))) true,
       Raise (SystemExit 7 (PyInt 2))) ∧
  lifecycle
    (trace (Demo.stopped [Demo.acme_ep] (Demo.raises (SystemExit 7 (PyInt 2))) true)) =
    [HookCall "task_start" []; BlockRun;
     HookCall "task_stop" [("failed", PyBool true)]].
Proof.
  apply (task_context_exit_request (Demo.env [Demo.acme_ep])
           (Demo.raises (SystemExit 7 (PyInt 2))) Demo.fresh
           (Demo.discovered [Demo.acme_ep])
           (Demo.started [Demo.acme_ep])
           (Demo.ran [Demo.acme_ep] (Demo.raises (SystemExit 7 (PyInt 2))))
           (Demo.stopped [Demo.acme_ep] (Demo.raises (SystemExit 7 (PyInt 2))) true) 7 2%Z);
    vm_compute; reflexivity.
Defined.

(** The same session with exit code 0: [task_stop] sees [failed=False] and
    the exit request still reaches the caller. *)
Example exit_zero_is_success :
  with_task_context (Demo.env [Demo.acme_ep])
      (Demo.raises (SystemExit 7 (PyInt 0))) Demo.fresh
    = (Demo.stopped [Demo.acme_ep] (Demo.raises (SystemExit 7 (PyInt 0))) false,
       Raise (SystemExit 7 (PyInt 0))).
Proof. vm_compute. reflexivity. Qed.

(** C4, as amended.  When the [task_start] dispatch raises, because one of
    its implementations did, the session ends there: the block does not
    run, no [task_stop] dispatch is made and no [task_stop] implementation
    is called.  The caller sees the exception that was raised, unchanged,
    unless it is a [StopIteration]: that one leaves the generator as the
    [RuntimeError] Python puts in its place, with the [StopIteration] as
    its cause. *)
Theorem task_start_failure_skips_stop E block w w1 w2 e :
  resolve_hooks E w = (w1, Ok tt) →
  hook_call E "task_start" [] w1 = (w2, Raise e) →
  with_task_context E block w =
    (w2, Raise (match e with
                | StopIteration n => GeneratorRuntimeError n
                | _ => e
                end)) ∧
  lifecycle (trace w2) = lifecycle (trace w) ++ [HookCall "task_start" []] ∧
  filter (is_impl_call "task_stop") (trace w2) =
    filter (is_impl_call "task_stop") (trace w).
Proof.
  intros H1 H2. split; [by eapply session_start_raises|]. split.
  - rewrite (hook_call_lifecycle _ _ _ _ _ _ H2).
    by rewrite (resolve_hooks_lifecycle _ _ _ _ H1).
  - destruct (hook_call_trace _ _ _ _ _ _ H2) as (evs & -> & Hevs).
    assert (filter (is_impl_call "task_stop") evs = []) as Hnone.
    { apply (filter_none _ (impl_event "task_start")); [|done].
      intros []; simpl; try done. by intros ->. }
    rewrite filter_app, filter_cons, Hnone, app_nil_r. simpl.
    apply (grows_filter _ discovery_event); [by intros []|].
    by eapply resolve_hooks_emits.
Qed.

Lemma task_start_failure_skips_stop_witness :
  with_task_context (Demo.env [Demo.acme_ep; Demo.broken_start_ep])
      Demo.returns Demo.fresh
    = (Demo.started [Demo.acme_ep; Demo.broken_start_ep], Raise (Exception 40)) ∧
  lifecycle (trace (Demo.started [Demo.acme_ep; Demo.broken_start_ep])) =
    [HookCall "task_start" []] ∧
  filter (is_impl_call "task_stop")
    (trace (Demo.started [Demo.acme_ep; Demo.broken_start_ep])) = [].
Proof.
  apply (task_start_failure_skips_stop
           (Demo.env [Demo.acme_ep; Demo.broken_start_ep]) Demo.returns
           Demo.fresh
           (Demo.discovered [Demo.acme_ep; Demo.broken_start_ep])
           (Demo.started [Demo.acme_ep; Demo.broken_start_ep]) (Exception 40));
    vm_compute; reflexivity.
Defined.

(** C4 as it was stated fails for a [StopIteration]: the [task_start]
    dispatch raises it, and what the caller of the session gets is another
    exception. *)
Lemma task_start_stop_iteration_is_replaced :
  hook_call (Demo.env [Demo.acme_ep; Demo.exhausted_start_ep]) "task_start" []
      (Demo.discovered [Demo.acme_ep; Demo.exhausted_start_ep])
    = (Demo.started [Demo.acme_ep; Demo.exhausted_start_ep],
       Raise (StopIteration 60)) ∧
  with_task_context (Demo.env [Demo.acme_ep; Demo.exhausted_start_ep])
      Demo.returns Demo.fresh
    = (Demo.started [Demo.acme_ep; Demo.exhausted_start_ep],
       Raise (GeneratorRuntimeError 60)) ∧
  GeneratorRuntimeError 60 ≠ StopIteration 60.
Proof. split; [|split]; [vm_compute; reflexivity..|done]. Qed.

(** C5, as amended.  When the block raises and the [task_stop] dispatch
    raises in its turn, the caller of the session sees the error that
    leaves the generator, in place of the one the block raised: the error
    of [task_stop] itself, or, when that is a [StopIteration], the
    [RuntimeError] Python puts in its place.  The one exception is a
    [RuntimeError] whose [__cause__] is the [StopIteration] the block
    raised: [with] then re-raises the block's [StopIteration]. *)
Theorem stop_hook_error_shadows E block w w1 w2 w3 w4 value e :
  resolve_hooks E w = (w1, Ok tt) →
  hook_call E "task_start" [] w1 = (w2, Ok tt) →
  run_block block w2 = (w3, Raise value) →
  hook_call E "task_stop" [("failed", PyBool (failed_flag (Raise value)))] w3
    = (w4, Raise e) →
  with_task_context E block w =
    (w4, Raise (if caused_by (leaves_generator e) value then value
                else leaves_generator e)) ∧
  (is_StopIteration e = false → caused_by e value = false →
   with_task_context E block w = (w4, Raise e)).
Proof.
  intros H1 H2 H3 H4.
  pose proof (session_stop_raises _ _ _ _ _ _ _ _ _ H1 H2 H3 H4) as Hs.
  split; [done|]. intros He Hc. rewrite Hs. simpl.
  destruct e; try done; simpl in *; by rewrite Hc.
Qed.

Lemma stop_hook_error_shadows_witness :
  with_task_context (Demo.env [Demo.acme_ep; Demo.broken_stop_ep])
      (Demo.raises (Exception 7)) Demo.fresh
    = (Demo.stopped [Demo.acme_ep; Demo.broken_stop_ep]
         (Demo.raises (Exception 7)) true,
       Raise (Exception 50)) ∧
  (is_StopIteration (Exception 50) = false →
   caused_by (Exception 50) (Exception 7) = false →
   with_task_context (Demo.env [Demo.acme_ep; Demo.broken_stop_ep])
       (Demo.raises (Exception 7)) Demo.fresh
     = (Demo.stopped [Demo.acme_ep; Demo.broken_stop_ep]
          (Demo.raises (Exception 7)) true,
        Raise (Exception 50))).
Proof.
  apply (stop_hook_error_shadows
           (Demo.env [Demo.acme_ep; Demo.broken_stop_ep])
           (Demo.raises (Exception 7)) Demo.fresh
           (Demo.discovered [Demo.acme_ep; Demo.broken_stop_ep])
           (Demo.started [Demo.acme_ep; Demo.broken_stop_ep])
           (Demo.ran [Demo.acme_ep; Demo.broken_stop_ep]
              (Demo.raises (Exception 7)))
           (Demo.stopped [Demo.acme_ep; Demo.broken_stop_ep]
              (Demo.raises (Exception 7)) true)
           (Exception 7) (Exception 50));
    vm_compute; reflexivity.
Defined.

(** C5 as it was stated fails for a [StopIteration]: the [task_stop]
    dispatch raises it while the block's exception is propagating, and
    what the caller of the session gets is another exception. *)
Lemma stop_hook_stop_iteration_is_replaced :
  hook_call (Demo.env [Demo.acme_ep; Demo.exhausted_stop_ep]) "task_stop"
      [("failed", PyBool true)]
      (Demo.ran [Demo.acme_ep; Demo.exhausted_stop_ep]
         (Demo.raises (Exception 7)))
    = (Demo.stopped [Demo.acme_ep; Demo.exhausted_stop_ep]
         (Demo.raises (Exception 7)) true,
       Raise (StopIteration 70)) ∧
  with_task_context (Demo.env [Demo.acme_ep; Demo.exhausted_stop_ep])
      (Demo.raises (Exception 7)) Demo.fresh
    = (Demo.stopped [Demo.acme_ep; Demo.exhausted_stop_ep]
         (Demo.raises (Exception 7)) true,
       Raise (GeneratorRuntimeError 70)) ∧
  GeneratorRuntimeError 70 ≠ StopIteration 70.
Proof. split; [|split]; [vm_compute; reflexivity..|done]. Qed.

(** The exception to C5 as amended: the stop hook raises a [RuntimeError]
    whose cause is the [StopIteration] the block raised, and the caller
    gets the block's [StopIteration]. *)
Example chained_stop_error_gives_way :
  with_task_context (Demo.env [Demo.acme_ep; Demo.chained_stop_ep])
      (Demo.raises (StopIteration 7)) Demo.fresh
    = (Demo.stopped [Demo.acme_ep; Demo.chained_stop_ep]
         (Demo.raises (StopIteration 7)) true,
       Raise (StopIteration 7)).
Proof. vm_compute. reflexivity. Qed.

(** C9.  When the block ends with a signal that is neither a [SystemExit]
    nor an [Exception], such as [KeyboardInterrupt], no handler runs and
    [task_stop] is still called, once, with the [failed=True] assigned
    before the block; the signal then reaches the caller, provided the
    [task_stop] dispatch returns. *)
Theorem task_context_other_signal E block w w1 w2 w3 w4 n :
  resolve_hooks E w = (w1, Ok tt) →
  hook_call E "task_start" [] w1 = (w2, Ok tt) →
  run_block block w2 = (w3, Raise (BaseOnly n)) →
  hook_call E "task_stop" [("failed", PyBool true)] w3 = (w4, Ok tt) →
  with_task_context E block w = (w4, Raise (BaseOnly n)) ∧
  lifecycle (trace w4) =
    lifecycle (trace w) ++
    [HookCall "task_start" []; BlockRun;
     HookCall "task_stop" [("failed", PyBool true)]].
Proof.
  intros H1 H2 H3 H4. split.
  - by eapply session_stop_returns.
  - by eapply session_lifecycle.
Qed.

Lemma task_context_other_signal_witness :
  with_task_context (Demo.env [Demo.acme_ep]) (Demo.raises (BaseOnly 9))
      Demo.fresh
    = (Demo.stopped [Demo.acme_ep] (Demo.raises (BaseOnly 9)) true,
       Raise (BaseOnly 9)) ∧
  lifecycle (trace (Demo.stopped [Demo.acme_ep] (Demo.raises (BaseOnly 9)) true)) =
    [HookCall "task_start" []; BlockRun;
     HookCall "task_stop" [("failed", PyBool true)]].
Proof.
  apply (task_context_other_signal (Demo.env [Demo.acme_ep])
           (Demo.raises (BaseOnly 9)) Demo.fresh
           (Demo.discovered [Demo.acme_ep])
           (Demo.started [Demo.acme_ep])
           (Demo.ran [Demo.acme_ep] (Demo.raises (BaseOnly 9)))
           (Demo.stopped [Demo.acme_ep] (Demo.raises (BaseOnly 9)) true));
    vm_compute; reflexivity.
Defined.

(** C10.  When the block ends with [SystemExit] whose code is [None], as
    [sys.exit()] without an argument gives, or a string, [task_stop] is
    called with [failed=True]: the code is compared with [0] as it stands.
    The exit request then reaches the caller, provided the [task_stop]
    dispatch returns. *)
Theorem task_context_exit_without_status E block w w1 w2 w3 w4 n code :
  code = PyNone ∨ (∃ msg, code = PyStr msg) →
  resolve_hooks E w = (w1, Ok tt) →
  hook_call E "task_start" [] w1 = (w2, Ok tt) →
  run_block block w2 = (w3, Raise (SystemExit n code)) →
  hook_call E "task_stop" [("failed", PyBool true)] w3 = (w4, Ok tt) →
  with_task_context E block w = (w4, Raise (SystemExit n code)) ∧
  lifecycle (trace w4) =
    lifecycle (trace w) ++
    [HookCall "task_start" []; BlockRun;
     HookCall "task_stop" [("failed", PyBool true)]].
Proof.
  intros Hc H1 H2 H3 H4. split.
  - eapply session_stop_returns; [done..|].
    by destruct Hc as [->|[msg ->]].
  - by eapply session_lifecycle.
Qed.

Lemma task_context_exit_without_status_witness :
  with_task_context (Demo.env [Demo.acme_ep])
      (Demo.raises (SystemExit 7 PyNone)) Demo.fresh
    = (Demo.stopped [Demo.acme_ep] (Demo.raises (SystemExit 7 PyNone)) true,
       Raise (SystemExit 7 PyNone)) ∧
  lifecycle
    (trace (Demo.stopped [Demo.acme_ep] (Demo.raises (SystemExit 7 PyNone)) true)) =
    [HookCall "task_start" []; BlockRun;
     HookCall "task_stop" [("failed", PyBool true)]].
Proof.
  apply (task_context_exit_without_status (Demo.env [Demo.acme_ep])
           (Demo.raises (SystemExit 7 PyNone)) Demo.fresh
           (Demo.discovered [Demo.acme_ep])
           (Demo.started [Demo.acme_ep])
           (Demo.ran [Demo.acme_ep] (Demo.raises (SystemExit 7 PyNone)))
           (Demo.stopped [Demo.acme_ep] (Demo.raises (SystemExit 7 PyNone)) true) 7 PyNone);
    [by left | vm_compute; reflexivity ..].
Defined.

(** ** Hooks registered while a session starts *)

(** C7.  A [task_stop] implementation that was not registered when the
    session was entered, is registered once the [task_start] dispatch has
    returned and is still registered when the block ends, is called by the
    [task_stop] dispatch of that same session, with the [failed] value the
    specification gives for the way the block ended; the dispatch walks
    every implementation registered when it starts, in whatever order
    pluggy takes them. *)
Theorem stop_hook_registered_at_start_runs E block w w1 w2 w3 w4 o s :
  (∀ l, call_order E l ≡ₚ l) →
  resolve_hooks E w = (w1, Ok tt) →
  s ∉ registered "task_stop" (plugins w1) →
  hook_call E "task_start" [] w1 = (w2, Ok tt) →
  s ∈ registered "task_stop" (plugins w2) →
  run_block block w2 = (w3, o) →
  s ∈ registered "task_stop" (plugins w3) →
  hook_call E "task_stop" [("failed", PyBool (expected_failed o))] w3
    = (w4, Ok tt) →
  with_task_context E block w = (w4, o) ∧
  ∃ evs, trace w4 = trace w3 ++ evs ∧
         ImplCall "task_stop" s
           (bind_args s [("failed", PyBool (expected_failed o))]) ∈ evs.
Proof.
  intros Hperm H1 _ H2 _ H3 Hs H4. split.
  - eapply session_stop_returns; [done..|]. by rewrite failed_flag_expected.
  - eexists. split; [by apply hook_call_returns_trace|].
    apply elem_of_cons. right.
    apply (list_elem_of_fmap_2 (λ i, ImplCall "task_stop" i (bind_args i _))).
    by rewrite Hperm.
Qed.

Lemma stop_hook_registered_at_start_runs_witness :
  with_task_context (Demo.env [Demo.acme_ep])
      (Demo.raises (SystemExit 7 (PyInt 2))) Demo.fresh
    = (Demo.stopped [Demo.acme_ep] (Demo.raises (SystemExit 7 (PyInt 2))) true,
       Raise (SystemExit 7 (PyInt 2))) ∧
  ∃ evs,
    trace (Demo.stopped [Demo.acme_ep] (Demo.raises (SystemExit 7 (PyInt 2))) true)
    = trace (Demo.ran [Demo.acme_ep] (Demo.raises (SystemExit 7 (PyInt 2)))) ++ evs ∧
    ImplCall "task_stop" Demo.session_stop [("failed", PyBool true)] ∈ evs.
Proof.
  apply (stop_hook_registered_at_start_runs (Demo.env [Demo.acme_ep])
           (Demo.raises (SystemExit 7 (PyInt 2))) Demo.fresh
           (Demo.discovered [Demo.acme_ep]) (Demo.started [Demo.acme_ep])
           (Demo.ran [Demo.acme_ep] (Demo.raises (SystemExit 7 (PyInt 2))))
           (Demo.stopped [Demo.acme_ep] (Demo.raises (SystemExit 7 (PyInt 2))) true)
           (Raise (SystemExit 7 (PyInt 2))) Demo.session_stop).
  - intros l. apply reverse_Permutation.
  - vm_compute. reflexivity.
  - apply (bool_decide_unpack _). vm_compute. exact I.
  - vm_compute. reflexivity.
  - apply (bool_decide_unpack _). vm_compute. exact I.
  - vm_compute. reflexivity.
  - apply (bool_decide_unpack _). vm_compute. exact I.
  - vm_compute. reflexivity.
Defined.

(** ** Discovery *)

Section Discovery.

Variable E : environment.

Lemma logged_nil w : logged [] w = w.
Proof. destruct w. unfold logged. simpl. by rewrite app_nil_r. Qed.

Lemma logged_logged evs1 evs2 w :
  logged evs2 (logged evs1 w) = logged (evs1 ++ evs2) w.
Proof. unfold logged. simpl. by rewrite app_assoc. Qed.

(** [resolve_hooks] is one loop over its candidates. *)
Lemma resolve_hooks_candidates w :
  resolve_hooks E w = for_each (candidates E) (resolve_and_log E) w.
Proof.
  unfold resolve_hooks, candidates. rewrite for_each_app, !run_bind.
  by rewrite (for_each_filter _ _ (resolve_and_log E)).
Qed.

Lemma import_module_cached m w :
  m ∈ sys_modules w → import_module E m w = (w, Ok tt).
Proof.
  intros Hm. unfold import_module, is_imported. rewrite run_bind.
  by rewrite bool_decide_true.
Qed.

Lemma resolve_and_log_cached ep w :
  resolved E ep w → resolve_and_log E ep w = (logged [LogDebug ep] w, Ok tt).
Proof.
  intros [Hm Ha]. unfold resolve_and_log, ep_resolve.
  by rewrite !run_bind, import_module_cached, Ha.
Qed.

Lemma import_module_returns m w w' :
  import_module E m w = (w', Ok tt) →
  m ∈ sys_modules w' ∧ sys_modules w ⊆ sys_modules w'.
Proof.
  unfold import_module, is_imported. rewrite run_bind.
  case_bool_decide as Hm.
  - intros [= <-]. done.
  - unfold emit, call_foreign, cache_module, mbind, py_bind. simpl.
    destruct (module_body E m (plugins w)) as [r [[]|e]]; [|done].
    intros [= <-]. simpl. set_solver.
Qed.

Lemma resolve_and_log_returns ep w w' :
  resolve_and_log E ep w = (w', Ok tt) →
  resolved E ep w' ∧ sys_modules w ⊆ sys_modules w'.
Proof.
  unfold resolve_and_log, ep_resolve, resolved. rewrite !run_bind.
  destruct (import_module E (module_name ep) w) as [w1 [[]|e]] eqn:Hi; [|done].
  apply import_module_returns in Hi as [Hm Hsub].
  destruct (has_attrs E ep); [|done].
  intros [= <-]. done.
Qed.

(** A loop that returned has left every one of its entry points resolved. *)
Lemma for_each_resolve_returns eps w w' :
  for_each eps (resolve_and_log E) w = (w', Ok tt) →
  sys_modules w ⊆ sys_modules w' ∧ Forall (λ ep, resolved E ep w') eps.
Proof.
  revert w. induction eps as [|ep eps IH]; intros w; simpl.
  - intros [= <-]. done.
  - rewrite run_bind.
    destruct (resolve_and_log E ep w) as [w1 [[]|e]] eqn:Hr; [|done].
    apply resolve_and_log_returns in Hr as [[Hm Ha] Hsub].
    intros Hrest. apply IH in Hrest as [Hsub' Hall]. split; [by etrans|].
    constructor; [|done]. split; [by apply Hsub'|done].
Qed.

(** Over resolved entry points the loop only writes its debug lines. *)
Lemma for_each_resolve_cached eps w :
  Forall (λ ep, resolved E ep w) eps →
  for_each eps (resolve_and_log E) w = (logged (LogDebug <$> eps) w, Ok tt).
Proof.
  revert w. induction eps as [|ep eps IH]; intros w Hall; simpl.
  - by rewrite logged_nil.
  - apply Forall_cons in Hall as [Hep Hall].
    rewrite run_bind, resolve_and_log_cached by done.
    rewrite IH, logged_logged; [done|].
    eapply Forall_impl; [exact Hall|]. by intros ep' [].
Qed.

End Discovery.

(** C8.  After a discovery that returned, a second one returns as well and
    leaves the registry and the import cache as the first one left them:
    the two together register what one registers, and the second executes
    no module body; all it adds is one debug line per candidate. *)
Theorem resolve_hooks_idempotent E w w1 :
  resolve_hooks E w = (w1, Ok tt) →
  ∃ w2, (resolve_hooks E;; resolve_hooks E) w = (w2, Ok tt) ∧
        plugins w2 = plugins w1 ∧
        sys_modules w2 = sys_modules w1 ∧
        filter is_exec (trace w2) = filter is_exec (trace w1) ∧
        trace w2 = trace w1 ++ (LogDebug <$> candidates E).
Proof.
  intros H1. exists (logged (LogDebug <$> candidates E) w1).
  rewrite run_bind, H1. split; [|split; [done|split; [done|split; [|done]]]].
  - rewrite resolve_hooks_candidates. apply for_each_resolve_cached.
    rewrite resolve_hooks_candidates in H1.
    by apply for_each_resolve_returns in H1 as [_ ?].
  - simpl. rewrite filter_app.
    rewrite (filter_none _ (λ ev, is_exec ev = false) (LogDebug <$> candidates E));
      [by rewrite app_nil_r | done |].
    by apply Forall_fmap, Forall_true.
Qed.

Lemma resolve_hooks_idempotent_witness :
  ∃ w2, (resolve_hooks (Demo.env [Demo.acme_ep]);;
         resolve_hooks (Demo.env [Demo.acme_ep])) Demo.fresh = (w2, Ok tt) ∧
        plugins w2 = plugins (Demo.discovered [Demo.acme_ep]) ∧
        sys_modules w2 = sys_modules (Demo.discovered [Demo.acme_ep]) ∧
        filter is_exec (trace w2) =
          filter is_exec (trace (Demo.discovered [Demo.acme_ep])) ∧
        trace w2 = trace (Demo.discovered [Demo.acme_ep]) ++
                   [LogDebug Demo.quay_ep; LogDebug Demo.acme_ep].
Proof.
  apply (resolve_hooks_idempotent (Demo.env [Demo.acme_ep]) Demo.fresh
           (Demo.discovered [Demo.acme_ep])).
  vm_compute. reflexivity.
Defined.

(** * Further properties of the source *)

(** ** Sessions that do not reach the block, and what a session never does *)

(** X1.  When discovery raises, the session ends there: all it has done is
    import modules and write debug lines, so no hook was dispatched and the
    block did not run.  The caller sees the exception discovery raised,
    unchanged, unless it is a [StopIteration]: that one leaves the
    generator as the [RuntimeError] Python puts in its place. *)
Theorem discovery_failure_aborts_session E block w w1 e :
  resolve_hooks E w = (w1, Raise e) →
  with_task_context E block w =
    (w1, Raise (match e with
                | StopIteration n => GeneratorRuntimeError n
                | _ => e
                end)) ∧
  grows discovery_event w w1 ∧
  lifecycle (trace w1) = lifecycle (trace w).
Proof.
  intros H1. split; [by rewrite with_task_context_run, H1|]. split.
  - by eapply resolve_hooks_emits.
  - by eapply resolve_hooks_lifecycle.
Qed.

Lemma discovery_failure_aborts_session_witness :
  with_task_context
      (Demo.env [Demo.acme_ep; DemoMore.exhausted_module_ep; Demo.broken_stop_ep])
      Demo.returns Demo.fresh
    = (Demo.discovered
         [Demo.acme_ep; DemoMore.exhausted_module_ep; Demo.broken_stop_ep],
       Raise (GeneratorRuntimeError 80)) ∧
  grows discovery_event Demo.fresh
    (Demo.discovered
       [Demo.acme_ep; DemoMore.exhausted_module_ep; Demo.broken_stop_ep]) ∧
  lifecycle
    (trace (Demo.discovered
              [Demo.acme_ep; DemoMore.exhausted_module_ep;
               Demo.broken_stop_ep])) = [].
Proof.
  apply (discovery_failure_aborts_session
           (Demo.env
              [Demo.acme_ep; DemoMore.exhausted_module_ep; Demo.broken_stop_ep])
           Demo.returns Demo.fresh
           (Demo.discovered
              [Demo.acme_ep; DemoMore.exhausted_module_ep; Demo.broken_stop_ep])
           (StopIteration 80)).
  vm_compute. reflexivity.
Defined.

(** X2.  Whatever the environment, the block and the hooks do, the
    lifecycle events of one session are nothing, [task_start] alone, or
    [task_start], the block and one [task_stop] called with the single
    keyword [failed]: [task_stop] is never dispatched twice or without
    [task_start] before it, and a block that was entered is always followed
    by [task_stop]. *)
Theorem session_lifecycle_shapes E block w :
  ∃ l, lifecycle (trace (with_task_context E block w).1) =
         lifecycle (trace w) ++ l ∧
       session_shape l.
Proof.
  rewrite with_task_context_run.
  destruct (resolve_hooks E w) as [w1 o1] eqn:H1.
  pose proof (resolve_hooks_lifecycle _ _ _ _ H1) as L1.
  destruct o1 as [[]|e1].
  2:{ exists []. simpl. rewrite L1, app_nil_r. split; [done|by left]. }
  destruct (hook_call E "task_start" [] w1) as [w2 o2] eqn:H2.
  pose proof (hook_call_lifecycle _ _ _ _ _ _ H2) as L2.
  destruct o2 as [[]|e2].
  2:{ eexists. simpl. rewrite L2, L1. split; [done|by right; left]. }
  destruct (run_block block w2) as [w3 o] eqn:H3.
  destruct (hook_call E "task_stop" _ w3) as [w4 o4] eqn:H4.
  pose proof (session_lifecycle _ _ _ _ _ _ _ _ _ _ H1 H2 H3 H4) as L4.
  exists [HookCall "task_start" []; BlockRun;
          HookCall "task_stop" [("failed", PyBool (failed_flag o))]].
  split; [by destruct o4 as [[]|e4]|]. right; right. by eexists.
Qed.

(** X3.  A session returns normally only when discovery, the [task_start]
    dispatch, the block and the [task_stop] dispatch all returned, and
    [task_stop] was then called with [failed=False]: an exception is never
    swallowed. *)
Theorem normal_return_means_all_returned E block w w' :
  with_task_context E block w = (w', Ok tt) →
  ∃ w1 w2 w3,
    resolve_hooks E w = (w1, Ok tt) ∧
    hook_call E "task_start" [] w1 = (w2, Ok tt) ∧
    run_block block w2 = (w3, Ok tt) ∧
    hook_call E "task_stop" [("failed", PyBool false)] w3 = (w', Ok tt).
Proof.
  rewrite with_task_context_run.
  destruct (resolve_hooks E w) as [w1 [[]|e1]] eqn:H1; [|done].
  destruct (hook_call E "task_start" [] w1) as [w2 [[]|e2]] eqn:H2; [|done].
  destruct (run_block block w2) as [w3 o] eqn:H3.
  destruct (hook_call E "task_stop" _ w3) as [w4 [[]|e4]] eqn:H4; [|done].
  intros [= -> ->]. by exists w1, w2, w3.
Qed.

Lemma normal_return_means_all_returned_witness :
  ∃ w1 w2 w3,
    resolve_hooks (Demo.env [Demo.acme_ep]) Demo.fresh = (w1, Ok tt) ∧
    hook_call (Demo.env [Demo.acme_ep]) "task_start" [] w1 = (w2, Ok tt) ∧
    run_block Demo.returns w2 = (w3, Ok tt) ∧
    hook_call (Demo.env [Demo.acme_ep]) "task_stop" [("failed", PyBool false)] w3
      = (Demo.stopped [Demo.acme_ep] Demo.returns false, Ok tt).
Proof.
  apply (normal_return_means_all_returned (Demo.env [Demo.acme_ep])
           Demo.returns Demo.fresh).
  vm_compute. reflexivity.
Defined.

(** X4.  When the block returns normally and the [task_stop] dispatch
    raises, the session raises: a failing stop hook turns a finished task
    into an error, after [task_stop] was called with [failed=False].  The
    caller sees the exception of [task_stop], unchanged, unless it is a
    [StopIteration]: that one leaves the generator as the [RuntimeError]
    Python puts in its place. *)
Theorem stop_hook_error_after_success E block w w1 w2 w3 w4 e :
  resolve_hooks E w = (w1, Ok tt) →
  hook_call E "task_start" [] w1 = (w2, Ok tt) →
  run_block block w2 = (w3, Ok tt) →
  hook_call E "task_stop" [("failed", PyBool false)] w3 = (w4, Raise e) →
  with_task_context E block w =
    (w4, Raise (match e with
                | StopIteration n => GeneratorRuntimeError n
                | _ => e
                end)) ∧
  lifecycle (trace w4) =
    lifecycle (trace w) ++
    [HookCall "task_start" []; BlockRun;
     HookCall "task_stop" [("failed", PyBool false)]].
Proof.
  intros H1 H2 H3 H4. split.
  - by rewrite (session_stop_raises _ _ _ _ _ _ _ _ _ H1 H2 H3 H4).
  - by eapply session_lifecycle.
Qed.

Lemma stop_hook_error_after_success_witness :
  with_task_context (Demo.env [Demo.acme_ep; Demo.exhausted_stop_ep])
      Demo.returns Demo.fresh
    = (Demo.stopped [Demo.acme_ep; Demo.exhausted_stop_ep] Demo.returns false,
       Raise (GeneratorRuntimeError 70)) ∧
  lifecycle
    (trace (Demo.stopped [Demo.acme_ep; Demo.exhausted_stop_ep]
              Demo.returns false)) =
    [HookCall "task_start" []; BlockRun;
     HookCall "task_stop" [("failed", PyBool false)]].
Proof.
  apply (stop_hook_error_after_success
           (Demo.env [Demo.acme_ep; Demo.exhausted_stop_ep]) Demo.returns
           Demo.fresh
           (Demo.discovered [Demo.acme_ep; Demo.exhausted_stop_ep])
           (Demo.started [Demo.acme_ep; Demo.exhausted_stop_ep])
           (Demo.ran [Demo.acme_ep; Demo.exhausted_stop_ep] Demo.returns)
           (Demo.stopped [Demo.acme_ep; Demo.exhausted_stop_ep]
              Demo.returns false)
           (StopIteration 70));
    vm_compute; reflexivity.
Defined.

(** ** What discovery imports and logs *)

Section DiscoverySteps.

Variable E : environment.

(** The ways [ep.resolve()] followed by the debug line can go. *)
Lemma resolve_and_log_cases ep w w' o :
  resolve_and_log E ep w = (w', o) →
  (module_name ep ∈ sys_modules w ∧ sys_modules w' = sys_modules w ∧
   ((o = Ok tt ∧ trace w' = trace w ++ [LogDebug ep]) ∨
    (o = Raise (import_error E ep) ∧ has_attrs E ep = false ∧
     trace w' = trace w ++ [])))
  ∨
  ((module_name ep ∉ sys_modules w) ∧
   ((o = Ok tt ∧
     trace w' = trace w ++ [ExecModule (module_name ep); LogDebug ep] ∧
     sys_modules w' = {[module_name ep]} ∪ sys_modules w) ∨
    (∃ e, o = Raise e ∧ trace w' = trace w ++ [ExecModule (module_name ep)] ∧
          sys_modules w ⊆ sys_modules w' ∧
          ((module_body E (module_name ep) (plugins w)).2 = Raise e ∨
           (has_attrs E ep = false ∧ e = import_error E ep))))).
Proof.
  unfold resolve_and_log, ep_resolve, import_module, is_imported, emit,
    call_foreign, cache_module, raise, mbind, py_bind, mret, py_ret.
  simpl. case_bool_decide as Hm.
  - destruct (has_attrs E ep) eqn:Ha; intros [= <- <-]; left;
      (split; [done|split; [done|]]).
    + by left.
    + right. by rewrite app_nil_r.
  - destruct (module_body E (module_name ep) (plugins w)) as [r [[]|e]] eqn:Hb;
      simpl.
    + destruct (has_attrs E ep) eqn:Ha; intros [= <- <-]; right;
        (split; [done|]); simpl.
      * left. by rewrite <- app_assoc.
      * right. eexists. split; [done|]. split; [done|].
        split; [apply union_subseteq_r|by right].
    + intros [= <- <-]. right. split; [done|]. right. eexists.
      split; [done|]. simpl. split; [done|]. split; [done|by left].
Qed.

(** A loop that returned has written one debug line per entry point, in
    order. *)
Lemma for_each_resolve_ok eps w w' :
  for_each eps (resolve_and_log E) w = (w', Ok tt) →
  ∃ evs, trace w' = trace w ++ evs ∧ debug_lines evs = eps.
Proof.
  revert w. induction eps as [|ep eps IH]; intros w; simpl.
  - intros [= <-]. exists []. by rewrite app_nil_r.
  - rewrite run_bind.
    destruct (resolve_and_log E ep w) as [w1 [[]|e1]] eqn:H1; [|done].
    intros (evs2 & T2 & D2)%IH.
    apply resolve_and_log_cases in H1
      as [(Hm & Hs & [[_ T1]|(? & _)])|(Hm & [(_ & T1 & Hs)|(e & ? & _)])];
      try done.
    + exists ([LogDebug ep] ++ evs2). rewrite T2, T1, app_assoc.
      split; [done|]. unfold debug_lines in *. rewrite omap_app.
      simpl. by rewrite D2.
    + exists ([ExecModule (module_name ep); LogDebug ep] ++ evs2).
      rewrite T2, T1, app_assoc.
      split; [done|]. unfold debug_lines in *. rewrite omap_app.
      simpl. by rewrite D2.
Qed.

(** A loop that raised stopped at the entry point that failed: the ones
    before it have their debug line, it and the ones after it have none. *)
Lemma for_each_resolve_raise eps w w' e :
  for_each eps (resolve_and_log E) w = (w', Raise e) →
  ∃ done ep rest evs,
    eps = done ++ ep :: rest ∧
    trace w' = trace w ++ evs ∧ debug_lines evs = done ∧
    ((∃ r, (module_body E (module_name ep) r).2 = Raise e) ∨
     (has_attrs E ep = false ∧ e = import_error E ep)).
Proof.
  revert w. induction eps as [|ep eps IH]; intros w; simpl; [done|].
  rewrite run_bind.
  destruct (resolve_and_log E ep w) as [w1 [[]|e1]] eqn:H1.
  - intros (done & ep' & rest & evs2 & -> & T2 & D2 & Hwhy)%IH.
    apply resolve_and_log_cases in H1
      as [(_ & _ & [[_ T1]|(? & _)])|(_ & [(_ & T1 & _)|(e0 & ? & _)])];
      try done.
    + exists (ep :: done), ep', rest, ([LogDebug ep] ++ evs2).
      split; [done|]. rewrite T2, T1, app_assoc. split; [done|].
      unfold debug_lines in *. rewrite omap_app. simpl. by rewrite D2.
    + exists (ep :: done), ep', rest,
        ([ExecModule (module_name ep); LogDebug ep] ++ evs2).
      split; [done|]. rewrite T2, T1, app_assoc. split; [done|].
      unfold debug_lines in *. rewrite omap_app. simpl. by rewrite D2.
  - intros [= <- <-].
    apply resolve_and_log_cases in H1
      as [(_ & _ & [[? _]|([= ->] & Ha & T1)])
         |(_ & [(? & _)|(e0 & [= ->] & T1 & _ & Hwhy)])];
      try done.
    + exists [], ep, eps, []. split; [done|]. split; [done|].
      split; [done|]. by right.
    + exists [], ep, eps, [ExecModule (module_name ep)].
      split; [done|]. split; [done|]. split; [done|].
      destruct Hwhy as [?|?]; [left; by eexists|by right].
Qed.

End DiscoverySteps.

(** X7.  After a discovery that returned, [sys.modules] still holds what
    it held before, and it holds the module of every console script in
    the [pubtools] namespace and of every entry point of the
    [pubtools.hooks] group, whatever that module is called. *)
Theorem resolve_hooks_imports_candidates E w w' :
  resolve_hooks E w = (w', Ok tt) →
  sys_modules w ⊆ sys_modules w' ∧
  (∀ ep, ep ∈ iter_entry_points E "console_scripts" →
         String.prefix "pubtools" (module_name ep) = true →
         module_name ep ∈ sys_modules w') ∧
  (∀ ep, ep ∈ iter_entry_points E "pubtools.hooks" →
         module_name ep ∈ sys_modules w').
Proof.
  rewrite resolve_hooks_candidates.
  intros [Hsub Hall]%for_each_resolve_returns. split; [done|].
  rewrite Forall_forall in Hall. unfold candidates in Hall.
  split.
  - intros ep Hep Hp. apply (Hall ep). apply elem_of_app. left.
    apply list_elem_of_filter. split; [by apply Is_true_true|done].
  - intros ep Hep. apply (Hall ep). apply elem_of_app. by right.
Qed.

Lemma resolve_hooks_imports_candidates_witness :
  sys_modules Demo.fresh ⊆ sys_modules (Demo.discovered [Demo.acme_ep]) ∧
  (∀ ep, ep ∈ iter_entry_points (Demo.env [Demo.acme_ep]) "console_scripts" →
         String.prefix "pubtools" (module_name ep) = true →
         module_name ep ∈ sys_modules (Demo.discovered [Demo.acme_ep])) ∧
  (∀ ep, ep ∈ iter_entry_points (Demo.env [Demo.acme_ep]) "pubtools.hooks" →
         module_name ep ∈ sys_modules (Demo.discovered [Demo.acme_ep])).
Proof.
  apply (resolve_hooks_imports_candidates (Demo.env [Demo.acme_ep]) Demo.fresh
           (Demo.discovered [Demo.acme_ep])).
  vm_compute. reflexivity.
Defined.

(** X8.  A discovery that returned wrote one debug line per candidate, in
    the order of the source: the [pubtools] console scripts first, then the
    [pubtools.hooks] group. *)
Theorem resolve_hooks_logs_every_candidate E w w' :
  resolve_hooks E w = (w', Ok tt) →
  ∃ evs, trace w' = trace w ++ evs ∧
         debug_lines evs =
           filter (λ ep, String.prefix "pubtools" (module_name ep))
                  (iter_entry_points E "console_scripts")
           ++ iter_entry_points E "pubtools.hooks".
Proof.
  rewrite resolve_hooks_candidates. apply for_each_resolve_ok.
Qed.

Lemma resolve_hooks_logs_every_candidate_witness :
  ∃ evs, trace (Demo.discovered [Demo.acme_ep]) = trace Demo.fresh ++ evs ∧
         debug_lines evs = [Demo.quay_ep; Demo.acme_ep].
Proof.
  apply (resolve_hooks_logs_every_candidate (Demo.env [Demo.acme_ep])
           Demo.fresh (Demo.discovered [Demo.acme_ep])).
  vm_compute. reflexivity.
Defined.

(** X9.  A discovery that raised stopped at the first candidate that failed
    to resolve: the exception is the one its module body raised, or the
    [ImportError] for a missing attribute; the candidates before it have
    their debug line, it and the candidates after it have none. *)
Theorem resolve_hooks_stops_at_first_failure E w w' e :
  resolve_hooks E w = (w', Raise e) →
  ∃ done ep rest evs,
    candidates E = done ++ ep :: rest ∧
    trace w' = trace w ++ evs ∧ debug_lines evs = done ∧
    ((∃ r, (module_body E (module_name ep) r).2 = Raise e) ∨
     (has_attrs E ep = false ∧ e = import_error E ep)).
Proof.
  rewrite resolve_hooks_candidates. apply for_each_resolve_raise.
Qed.

Lemma resolve_hooks_stops_at_first_failure_witness :
  ∃ done ep rest evs,
    candidates (Demo.env [Demo.acme_ep; DemoMore.missing_ep; Demo.broken_stop_ep])
      = done ++ ep :: rest ∧
    trace (Demo.discovered
             [Demo.acme_ep; DemoMore.missing_ep; Demo.broken_stop_ep])
      = trace Demo.fresh ++ evs ∧
    debug_lines evs = done ∧
    ((∃ r, (module_body
              (Demo.env [Demo.acme_ep; DemoMore.missing_ep; Demo.broken_stop_ep])
              (module_name ep) r).2 = Raise (Exception 404)) ∨
     (has_attrs
        (Demo.env [Demo.acme_ep; DemoMore.missing_ep; Demo.broken_stop_ep]) ep
        = false ∧
      Exception 404 =
        import_error
          (Demo.env [Demo.acme_ep; DemoMore.missing_ep; Demo.broken_stop_ep]) ep)).
Proof.
  apply (resolve_hooks_stops_at_first_failure
           (Demo.env [Demo.acme_ep; DemoMore.missing_ep; Demo.broken_stop_ep])
           Demo.fresh
           (Demo.discovered
              [Demo.acme_ep; DemoMore.missing_ep; Demo.broken_stop_ep])).
  vm_compute. reflexivity.
Defined.

(** ** A session after a session *)

Section Modules.

Variable E : environment.

Lemma call_foreign_modules f w w' o :
  call_foreign f w = (w', o) → sys_modules w' = sys_modules w.
Proof.
  unfold call_foreign. destruct (f (plugins w)) as [r o']. by intros [= <- _].
Qed.

Lemma for_each_call_impl_modules spec kw impls w w' o :
  for_each impls (call_impl E spec kw) w = (w', o) →
  sys_modules w' = sys_modules w.
Proof.
  revert w. induction impls as [|i impls IH]; intros w; simpl.
  - by intros [= <- _].
  - rewrite run_bind, call_impl_run.
    destruct (impl_body E i (bind_args i kw) (plugins w)) as [r [[]|e]].
    + by intros ->%IH.
    + by intros [= <- _].
Qed.

Lemma hook_call_modules spec kw w w' o :
  hook_call E spec kw w = (w', o) → sys_modules w' = sys_modules w.
Proof.
  unfold hook_call, mbind, py_bind, emit, get_hookimpls. simpl.
  by intros ->%for_each_call_impl_modules.
Qed.

Lemma run_block_modules block w w' o :
  run_block block w = (w', o) → sys_modules w' = sys_modules w.
Proof.
  unfold run_block, mbind, py_bind, emit. simpl.
  by intros ->%call_foreign_modules.
Qed.

(** Hooks and the block leave [sys.modules] as discovery left it. *)
Lemma session_modules block w w1 w' o :
  resolve_hooks E w = (w1, Ok tt) →
  with_task_context E block w = (w', o) →
  sys_modules w' = sys_modules w1.
Proof.
  intros H1. rewrite with_task_context_run, H1.
  destruct (hook_call E "task_start" [] w1) as [w2 [[]|e2]] eqn:H2.
  - destruct (run_block block w2) as [w3 o3] eqn:H3.
    destruct (hook_call E "task_stop" _ w3) as [w4 o4] eqn:H4.
    apply hook_call_modules in H2, H4. apply run_block_modules in H3.
    destruct o4 as [[]|e4]; intros [= <- _]; congruence.
  - apply hook_call_modules in H2. by intros [= <- _].
Qed.

End Modules.

(** X10.  Once a session's discovery has returned, however that session
    ended, a later discovery returns too, executes no module body and
    leaves the registry and [sys.modules] as the session left them: hooks
    registered in one session are still registered in the next, and all
    discovery adds is its debug lines. *)
Theorem discovery_after_session E block w w1 w' o :
  resolve_hooks E w = (w1, Ok tt) →
  with_task_context E block w = (w', o) →
  resolve_hooks E w' = (logged (LogDebug <$> candidates E) w', Ok tt).
Proof.
  intros H1 Hs. rewrite resolve_hooks_candidates.
  apply for_each_resolve_cached.
  pose proof (session_modules _ _ _ _ _ _ H1 Hs) as Hm.
  rewrite resolve_hooks_candidates in H1.
  apply for_each_resolve_returns in H1 as [_ Hall].
  eapply Forall_impl; [exact Hall|]. intros ep [Hin Ha].
  split; [by rewrite Hm|done].
Qed.

Lemma discovery_after_session_witness :
  resolve_hooks (Demo.env [Demo.acme_ep])
      (Demo.stopped [Demo.acme_ep] (Demo.raises (Exception 7)) true)
    = (logged [LogDebug Demo.quay_ep; LogDebug Demo.acme_ep]
         (Demo.stopped [Demo.acme_ep] (Demo.raises (Exception 7)) true),
       Ok tt).
Proof.
  apply (discovery_after_session (Demo.env [Demo.acme_ep])
           (Demo.raises (Exception 7)) Demo.fresh
           (Demo.discovered [Demo.acme_ep])
           (Demo.stopped [Demo.acme_ep] (Demo.raises (Exception 7)) true)
           (Raise (Exception 7)));
    vm_compute; reflexivity.
Defined.
